(** * dataclass_type_validator: runtime validation of dataclass field types

    A shallow embedding of [dataclass_type_validator/__init__.py]: the
    recursive matcher [_validate_types], the aggregating
    [dataclass_type_validator] and the class decorator [dataclass_validate],
    over a small model of the Python objects they inspect. *)

From Stdlib Require Import String Ascii List ZArith Bool Arith Lia Permutation.
From Stdlib Require DecimalString HexadecimalString.
Import ListNotations.
Set Warnings "-register-all".
Local Open Scope string_scope.

(** ** Python objects *)

(** A class is identified by the name [str(cls)] prints between the quotes
    of [<class '...'>]: ["int"], ["__main__.Point"]. *)
Definition pyclass := string.

(** The objects a field can hold.  [VInstance cls has_call base] is an
    instance of a user-defined class [cls] that derives from the class of
    [base] and overrides none of its special methods; [has_call] tells
    whether [cls] defines [__call__].  A plain user object derives from
    [object]: its [base] is a [VObject]. *)
Inductive pyobj :=
| VNone
| VBool (b : bool)
| VInt (n : Z)
| VStr (s : string)
| VList (items : list pyobj)
| VTuple (items : list pyobj)
| VDict (entries : list (pyobj * pyobj))
| VFunction (name : string) (addr : N)
| VBuiltin (name : string)
| VClass (cls : pyclass)
| VObject (addr : N)
| VInstance (cls : pyclass) (has_call : bool) (base : pyobj).

(** [type(value).__mro__], by class name. *)
Fixpoint mro (value : pyobj) : list pyclass :=
  match value with
  | VNone => ["NoneType"; "object"]
  | VBool _ => ["bool"; "int"; "object"]
  | VInt _ => ["int"; "object"]
  | VStr _ => ["str"; "object"]
  | VList _ => ["list"; "object"]
  | VTuple _ => ["tuple"; "object"]
  | VDict _ => ["dict"; "object"]
  | VFunction _ _ => ["function"; "object"]
  | VBuiltin _ => ["builtin_function_or_method"; "object"]
  | VClass _ => ["type"; "object"]
  | VObject _ => ["object"]
  | VInstance cls _ base => cls :: mro base
  end.

(** [type(value)] *)
Definition type_of (value : pyobj) : pyclass := hd "object" (mro value).

(** [isinstance(value, cls)] *)
Definition isinstance (value : pyobj) (cls : pyclass) : bool :=
  existsb (String.eqb cls) (mro value).

(** [type(lambda a: a)] *)
Definition FunctionType : pyclass := "function".

(** [callable(value)]: functions, built-ins, classes, and instances of a
    class that defines [__call__]. *)
Fixpoint callable (value : pyobj) : bool :=
  match value with
  | VFunction _ _ | VBuiltin _ | VClass _ => true
  | VInstance _ has_call base => has_call || callable base
  | _ => false
  end.

(** Iteration over a list object, [value.keys()] and [value.values()] of a
    dict object. *)
Fixpoint list_items (value : pyobj) : list pyobj :=
  match value with
  | VList items => items
  | VInstance _ _ base => list_items base
  | _ => []
  end.

Fixpoint dict_entries (value : pyobj) : list (pyobj * pyobj) :=
  match value with
  | VDict entries => entries
  | VInstance _ _ base => dict_entries base
  | _ => []
  end.

Definition keys (value : pyobj) : list pyobj := map fst (dict_entries value).
Definition values (value : pyobj) : list pyobj := map snd (dict_entries value).

(** ** Text of objects: [str] and [repr] *)

Definition dquote : ascii := ascii_of_nat 34.
Definition squote : ascii := "'"%char.
Definition backslash : ascii := ascii_of_nat 92.

Definition hex_digit (n : nat) : ascii :=
  nth n (list_ascii_of_string "0123456789abcdef") "0"%char.

Fixpoint contains_char (c : ascii) (s : string) : bool :=
  match s with
  | EmptyString => false
  | String c' s' => Ascii.eqb c c' || contains_char c s'
  end.

(** One character of [repr(s)], characters being code points below 256. *)
Definition repr_char (quote c : ascii) : string :=
  let n := nat_of_ascii c in
  if Ascii.eqb c quote || Ascii.eqb c backslash then String backslash (String c "")
  else if (n =? 9)%nat then String backslash "t"
  else if (n =? 10)%nat then String backslash "n"
  else if (n =? 13)%nat then String backslash "r"
  else if ((n <? 32) || (n =? 127) || ((128 <=? n) && (n <=? 160)) || (n =? 173))%nat
  then String backslash
         (String "x" (String (hex_digit (n / 16)) (String (hex_digit (n mod 16)) "")))
  else String c "".

Fixpoint repr_chars (quote : ascii) (s : string) : string :=
  match s with
  | EmptyString => ""
  | String c s' => repr_char quote c ++ repr_chars quote s'
  end.

(** [repr(s)] of a string: single quotes, unless the text has a single
    quote and no double quote. *)
Definition repr_str (s : string) : string :=
  let quote := if contains_char squote s && negb (contains_char dquote s)
               then dquote else squote in
  String quote (repr_chars quote s ++ String quote "").

Definition str_int (n : Z) : string :=
  DecimalString.NilZero.string_of_int (Z.to_int n).

Definition str_addr (addr : N) : string :=
  "0x" ++ HexadecimalString.NilZero.string_of_uint (N.to_hex_uint addr).

(** [str(cls)] of a class *)
Definition str_class (cls : pyclass) : string := "<class '" ++ cls ++ "'>".

(** [repr(value)] *)
Fixpoint repr (value : pyobj) : string :=
  match value with
  | VNone => "None"
  | VBool b => if b then "True" else "False"
  | VInt n => str_int n
  | VStr s => repr_str s
  | VList items => "[" ++ String.concat ", " (map repr items) ++ "]"
  | VTuple items =>
      match items with
      | [x] => "(" ++ repr x ++ ",)"
      | _ => "(" ++ String.concat ", " (map repr items) ++ ")"
      end
  | VDict entries =>
      "{" ++ String.concat ", "
               (map (fun '(k, v) => repr k ++ ": " ++ repr v) entries) ++ "}"
  | VFunction name addr => "<function " ++ name ++ " at " ++ str_addr addr ++ ">"
  | VBuiltin name => "<built-in function " ++ name ++ ">"
  | VClass cls => str_class cls
  | VObject addr => "<object object at " ++ str_addr addr ++ ">"
  | VInstance cls _ base =>
      match base with
      | VObject addr => "<" ++ cls ++ " object at " ++ str_addr addr ++ ">"
      | _ => repr base
      end
  end.

(** [str(value)], which is also what an f-string inserts for [{value}]. *)
Fixpoint str (value : pyobj) : string :=
  match value with
  | VStr s => s
  | VInstance _ _ (VObject _) => repr value
  | VInstance _ _ base => str base
  | _ => repr value
  end.

(** [str(errors)] of a list of strings *)
Definition str_list (errors : list string) : string :=
  "[" ++ String.concat ", " (map repr_str errors) ++ "]".

(** [str(errors)] of a dict from strings to strings *)
Definition str_dict (errors : list (string * string)) : string :=
  "{" ++ String.concat ", "
           (map (fun '(k, v) => repr_str k ++ ": " ++ repr_str v) errors) ++ "}".

(** ** Exceptions and results *)

Inductive exn :=
| RuntimeError (msg : string)
| IndexError (msg : string)
| AttributeError (msg : string)
| TypeError (msg : string)
| TypeValidationError (msg : string) (errors : list (string * string)).

Inductive result (A : Type) :=
| Return (a : A)
| Raise (e : exn).
Arguments Return {A} a.
Arguments Raise {A} e.

Definition bind {A B} (m : result A) (k : A -> result B) : result B :=
  match m with
  | Return a => k a
  | Raise e => Raise e
  end.

Notation "x <- m ;; k" := (bind m (fun x => k))
  (at level 61, m at next level, right associativity).

(** A list comprehension [[f(x) for x in l]] whose body can raise. *)
Definition comprehension {A B} (f : A -> result B) : list A -> result (list B) :=
  fix go (l : list A) : result (list B) :=
    match l with
    | [] => Return []
    | x :: l' => y <- f x ;; ys <- go l' ;; Return (y :: ys)
    end.

(** [any(f(x) for x in l)]: stops at the first true. *)
Definition any {A} (f : A -> result bool) : list A -> result bool :=
  fix go (l : list A) : result bool :=
    match l with
    | [] => Return false
    | x :: l' => b <- f x ;; if b then Return true else go l'
    end.

(** [[x for x in errors if x]]: [None] and the empty string are falsy. *)
Definition truthy (x : option string) : bool :=
  match x with
  | Some (String _ _) => true
  | _ => false
  end.

Fixpoint keep_truthy (errors : list (option string)) : list string :=
  match errors with
  | [] => []
  | Some (String c s) :: rest => String c s :: keep_truthy rest
  | _ :: rest => keep_truthy rest
  end.

Definition is_None {A} (x : option A) : bool :=
  match x with
  | None => true
  | Some _ => false
  end.

(** ** Type annotations *)

(** What [field.type] can be: a class ([isinstance(expected_type, type)]),
    a [typing._GenericAlias] with its [_name], its [str()] and its
    [__args__], or any other object (a forward reference written as a string,
    a type variable), known by its [str()]. *)
Inductive type_hint :=
| Class (cls : pyclass)
| GenericAlias (_name : option string) (text : string) (__args__ : list type_hint)
| OtherHint (text : string).

(** [str(expected_type)] *)
Definition str_hint (expected_type : type_hint) : string :=
  match expected_type with
  | Class cls => str_class cls
  | GenericAlias _ text _ => text
  | OtherHint text => text
  end.

(** [expected_type._name] in a message: [None] prints as ["None"]. *)
Definition str_name (_name : option string) : string :=
  match _name with
  | Some n => n
  | None => "None"
  end.

(** ** The matcher *)

Definition _validate_type (expected_type : pyclass) (value : pyobj) : option string :=
  if negb (isinstance value expected_type)
  then Some ("must be an instance of " ++ str_class expected_type
             ++ ", but received " ++ str_class (type_of value))
  else None.

(** The functions stored in [_validate_typing_mappings]. *)
Inductive validate_func := F_list | F_dict | F_callable.

Definition _validate_typing_mappings : list (string * validate_func) :=
  [("List", F_list); ("Dict", F_dict); ("Callable", F_callable)].

(** [_validate_typing_mappings.get(name)] *)
Definition mappings_get (_name : option string) : option validate_func :=
  match _name with
  | None => None
  | Some n =>
      option_map snd (find (fun kv => String.eqb n (fst kv)) _validate_typing_mappings)
  end.

Section Matcher.
(** The three container validators and [_validate_sequential_types] call
    back into [_validate_types]; they are written over that function and
    the knot is tied below. *)
Variable _validate_types : type_hint -> pyobj -> bool -> result (option string).

Definition _validate_typing_list (expected_type : type_hint) (value : pyobj)
    (strict : bool) : result (option string) :=
  if negb (isinstance value "list")
  then Return (Some ("must be an instance of array, but received "
                     ++ str_class (type_of value)))
  else
    match expected_type with
    | GenericAlias _ _ (expected_item_type :: _) =>
        errors <- comprehension
                    (fun v => _validate_types expected_item_type v strict)
                    (list_items value) ;;
        let errors := keep_truthy errors in
        if (0 <? length errors)%nat
        then Return (Some ("must be an instance of " ++ str_hint expected_type
                           ++ ", but there are some errors: " ++ str_list errors))
        else Return None
    | _ => Raise (IndexError "tuple index out of range")
    end.

Definition _validate_typing_dict (expected_type : type_hint) (value : pyobj)
    (strict : bool) : result (option string) :=
  if negb (isinstance value "dict")
  then Return (Some ("must be an instance of dict, but received "
                     ++ str_class (type_of value)))
  else
    match expected_type with
    | GenericAlias _ _ (expected_key_type :: expected_value_type :: _) =>
        key_errors <- comprehension
                        (fun k => _validate_types expected_key_type k strict)
                        (keys value) ;;
        let key_errors := keep_truthy key_errors in
        val_errors <- comprehension
                        (fun v => _validate_types expected_value_type v strict)
                        (values value) ;;
        let val_errors := keep_truthy val_errors in
        if ((0 <? length key_errors) && (0 <? length val_errors))%nat
        then Return (Some ("must be an instance of " ++ str_hint expected_type
                           ++ ", but there are some errors in keys and values. "
                           ++ "key errors: " ++ str_list key_errors
                           ++ ", value errors: " ++ str_list val_errors))
        else if (0 <? length key_errors)%nat
        then Return (Some ("must be an instance of " ++ str_hint expected_type
                           ++ ", but there are some errors in keys: "
                           ++ str_list key_errors))
        else if (0 <? length val_errors)%nat
        then Return (Some ("must be an instance of " ++ str_hint expected_type
                           ++ ", but there are some errors in values: "
                           ++ str_list val_errors))
        else Return None
    | _ => Raise (IndexError "tuple index out of range")
    end.

Definition _validate_typing_callable (expected_type : type_hint) (value : pyobj)
    (strict : bool) : result (option string) :=
  if negb (isinstance value FunctionType)
  then
    match expected_type with
    | GenericAlias _name _ _ =>
        Return (Some ("must be an instance of " ++ str_name _name
                      ++ ", but received " ++ str_class (type_of value)))
    | _ => Raise (AttributeError "_name")
    end
  else Return None.

Definition _validate_sequential_types (expected_type : type_hint) (value : pyobj)
    (strict : bool) : result (option string) :=
  match expected_type with
  | GenericAlias _name text __args__ =>
      match mappings_get _name with
      | Some F_list => _validate_typing_list expected_type value strict
      | Some F_dict => _validate_typing_dict expected_type value strict
      | Some F_callable => _validate_typing_callable expected_type value strict
      | None =>
          if String.prefix "typing.Union" (str_hint expected_type)
          then
            is_valid <- any (fun t => r <- _validate_types t value strict ;;
                                      Return (is_None r))
                            __args__ ;;
            if negb is_valid
            then Return (Some ("must be an instance of " ++ str_hint expected_type
                               ++ ", but received " ++ str value))
            else Return None
          else if strict
          then Raise (RuntimeError ("Unknown type of " ++ str_hint expected_type
                                    ++ " (_name = " ++ str_name _name ++ ")"))
          else Return None
      end
  | _ => Raise (AttributeError "_name")
  end.
End Matcher.

Fixpoint _validate_types (expected_type : type_hint) (value : pyobj) (strict : bool)
    {struct expected_type} : result (option string) :=
  match expected_type with
  | Class cls => Return (_validate_type cls value)
  | GenericAlias _ _ _ =>
      _validate_sequential_types _validate_types expected_type value strict
  | OtherHint _ => Return None
  end.

(** ** The aggregator *)

(** A [dataclasses.Field]: its [name] and its [type]. *)
Record Field := mkField { field_name : string; field_type : type_hint }.

(** A dataclass instance: the fields of its class and its attributes. *)
Record instance := mkInstance {
  dataclass_fields : list Field;
  attrs : list (string * pyobj)
}.

(** [getattr(target, name)] *)
Definition getattr (target : instance) (name : string) : result pyobj :=
  match find (fun kv => String.eqb name (fst kv)) (attrs target) with
  | Some kv => Return (snd kv)
  | None => Raise (AttributeError name)
  end.

(** [d[k] = v] on an insertion-ordered dict. *)
Fixpoint dict_set {V} (d : list (string * V)) (k : string) (v : V) : list (string * V) :=
  match d with
  | [] => [(k, v)]
  | (k', v') :: d' =>
      if String.eqb k k' then (k', v) :: d' else (k', v') :: dict_set d' k v
  end.

(** The [for field in fields] loop of [dataclass_type_validator], threading
    the [errors] dict. *)
Fixpoint validate_fields (target : instance) (strict : bool) (fields : list Field)
    (errors : list (string * string)) : result (list (string * string)) :=
  match fields with
  | [] => Return errors
  | field :: rest =>
      let field_name := field_name field in
      let expected_type := field_type field in
      value <- getattr target field_name ;;
      err <- _validate_types expected_type value strict ;;
      validate_fields target strict rest
        (match err with
         | Some e => dict_set errors field_name e
         | None => errors
         end)
  end.

Definition dataclass_type_validator (target : instance) (strict : bool) : result unit :=
  let fields := dataclass_fields target in
  errors <- validate_fields target strict fields [] ;;
  if (0 <? length errors)%nat
  then Raise (TypeValidationError "Dataclass Type Validation Error" errors)
  else Return tt.

(** ** The decorator *)

(** [__post_init__(self)] mutates the instance or raises. *)
Definition post_init_method := instance -> result instance.

(** [__init__(self, *args)].  The [__init__] that [dataclasses] generates
    ends with [self.__post_init__()], an attribute looked up on the class
    when the body runs: the first argument is what that lookup finds. *)
Definition init_method :=
  option post_init_method -> instance -> list pyobj -> result instance.

Record pycls := mkCls {
  cls_fields : list Field;
  __init__ : init_method;
  __post_init__ : option post_init_method
}.

(** The assignments [self.f = f] at the head of a generated [__init__]. *)
Fixpoint assign_fields (fields : list Field) (args : list pyobj)
    (d : list (string * pyobj)) : result (list (string * pyobj)) :=
  match fields, args with
  | [], [] => Return d
  | f :: fields', a :: args' => assign_fields fields' args' (dict_set d (field_name f) a)
  | _, _ => Raise (TypeError "__init__() arguments")
  end.

(** The [__init__] generated by [@dataclasses.dataclass]. *)
Definition generated_init (fields : list Field) : init_method :=
  fun post_init self args =>
    d <- assign_fields fields args (attrs self) ;;
    let self := mkInstance (dataclass_fields self) d in
    match post_init with
    | Some m => m self
    | None => Return self
    end.

(** [@dataclasses.dataclass class C: ...] with an optional [__post_init__]. *)
Definition dataclass (fields : list Field) (post_init : option post_init_method) : pycls :=
  mkCls fields (generated_init fields) post_init.

(** Instantiation: calling the class with the field values. *)
Definition construct (cls : pycls) (args : list pyobj) : result instance :=
  __init__ cls (__post_init__ cls) (mkInstance (cls_fields cls) []) args.

(** [hasattr(cls, "__post_init__")] *)
Definition hasattr_post_init (cls : pycls) : bool :=
  match __post_init__ cls with
  | Some _ => true
  | None => false
  end.

(** [dataclass_validate(cls, strict=..., before_post_init=...)]; the call
    without [cls] only returns this function with the two options fixed. *)
Definition dataclass_validate (cls : pycls) (strict before_post_init : bool) : pycls :=
  if before_post_init || negb (hasattr_post_init cls)
  then
    let orig_method := __init__ cls in
    let method_wrapper : init_method := fun post_init self args =>
      x <- orig_method post_init self args ;;
      _ <- dataclass_type_validator x strict ;;
      Return x in
    mkCls (cls_fields cls) method_wrapper (__post_init__ cls)
  else
    match __post_init__ cls with
    | Some orig_method =>
        let method_wrapper : post_init_method := fun self =>
          x <- orig_method self ;;
          _ <- dataclass_type_validator x strict ;;
          Return x in
        mkCls (cls_fields cls) (__init__ cls) (Some method_wrapper)
    | None => cls
    end.

(** * Properties *)

(** ** Outcomes of a match *)

Definition passes (t : type_hint) (strict : bool) (v : pyobj) : Prop :=
  _validate_types t v strict = Return None.

Definition fails_with (t : type_hint) (strict : bool) (v : pyobj) (msg : string) : Prop :=
  _validate_types t v strict = Return (Some msg).

Definition fails (t : type_hint) (strict : bool) (v : pyobj) : Prop :=
  exists msg, fails_with t strict v msg.

Definition returns (t : type_hint) (strict : bool) (v : pyobj) : Prop :=
  exists r, _validate_types t v strict = Return r.

Definition is_TypeValidationError (e : exn) : bool :=
  match e with
  | TypeValidationError _ _ => true
  | _ => false
  end.

(** The last character of a text. *)
Fixpoint last_char (s : string) : option ascii :=
  match s with
  | EmptyString => None
  | String c EmptyString => Some c
  | String _ s' => last_char s'
  end.

(** Whether an alternative matches, as a boolean. *)
Definition passesb (strict : bool) (v : pyobj) (t : type_hint) : bool :=
  match _validate_types t v strict with
  | Return None => true
  | _ => false
  end.


(** What the loop body computes for one field. *)
Definition field_outcome (target : instance) (strict : bool) (field : Field)
    : result (option string) :=
  value <- getattr target (field_name field) ;;
  _validate_types (field_type field) value strict.

(** The field fails its match. *)
Definition failing (target : instance) (strict : bool) (field : Field) : bool :=
  match field_outcome target strict field with
  | Return (Some _) => true
  | _ => false
  end.

(** The entry a field contributes to [errors]. *)
Definition field_error (target : instance) (strict : bool) (field : Field)
    : list (string * string) :=
  match field_outcome target strict field with
  | Return (Some msg) => [(field_name field, msg)]
  | _ => []
  end.

(** [def __post_init__(self): self.x = str(self.x)] *)
Definition stringify_x : post_init_method := fun self =>
  x <- getattr self "x" ;;
  Return (mkInstance (dataclass_fields self) (dict_set (attrs self) "x" (VStr (str x)))).

(** ** The text of a [TypeValidationError] *)

(** [TypeValidationError.__str__]: the constructor is given one positional
    argument, so [super().__str__()] is that message. *)
Definition TypeValidationError_str (msg : string) (errors : list (string * string))
    : string :=
  let s := msg in
  s ++ " (errors = " ++ str_dict errors ++ ")".

(** [TypeValidationError.__repr__], [module] and [name] being the
    [__module__] and the [__name__] of the class of the exception. *)
Definition TypeValidationError_repr (module name : string) (msg : string)
    (errors : list (string * string)) : string :=
  let cls_name :=
    if negb (String.eqb module "__main__") then module ++ "." ++ name else name in
  let attrs := String.concat ", " (map repr_str [msg]) in
  cls_name ++ "(" ++ attrs ++ ", errors=" ++ str_dict errors ++ ")".

(** ** Further notions used in the statements *)


(** The messages among the outcomes of the elements of a container. *)
Definition messages (outcomes : list (option string)) : list string :=
  flat_map (fun y => match y with Some msg => [msg] | None => [] end) outcomes.

(** ** Comprehensions and [any] *)

Section Comprehension.
Context {A B : Type} (f : A -> result B).

Lemma comprehension_cons x l :
  comprehension f (x :: l) =
  (y <- f x ;; ys <- comprehension f l ;; Return (y :: ys)).
Proof. reflexivity. Qed.

Lemma comprehension_Return l ys :
  comprehension f l = Return ys <-> Forall2 (fun x y => f x = Return y) l ys.
Proof.
  revert ys; induction l as [|x l IH]; intros ys; split; intros H.
  - inversion H; constructor.
  - inversion H; reflexivity.
  - rewrite comprehension_cons in H.
    destruct (f x) as [y|e] eqn:Hx; simpl in H; [|discriminate].
    destruct (comprehension f l) as [ys'|e] eqn:Hl; simpl in H; [|discriminate].
    inversion H; subst. constructor; [assumption|]. apply IH; reflexivity.
  - inversion H as [|x' y l' ys' Hx Hl]; subst.
    rewrite comprehension_cons, Hx; simpl.
    apply IH in Hl. rewrite Hl. reflexivity.
Qed.


Lemma comprehension_Raise l e :
  comprehension f l = Raise e -> Exists (fun x => f x = Raise e) l.
Proof.
  induction l as [|x l IH]; [discriminate|].
  rewrite comprehension_cons.
  destruct (f x) as [y|e'] eqn:Hx; simpl.
  - destruct (comprehension f l) as [ys|e'] eqn:Hl; simpl; [discriminate|].
    intros H; inversion H; subst. right; apply IH; reflexivity.
  - intros H; inversion H; subst. left; assumption.
Qed.
End Comprehension.

Lemma any_cons {A} (f : A -> result bool) x l :
  any f (x :: l) = (b <- f x ;; if b then Return true else any f l).
Proof. reflexivity. Qed.

(** When no element raises, [any] is the plain disjunction. *)
Lemma any_total {A} (f : A -> result bool) (g : A -> bool) l :
  Forall (fun x => f x = Return (g x)) l -> any f l = Return (existsb g l).
Proof.
  induction 1 as [|x l Hx _ IH]; [reflexivity|].
  rewrite any_cons, Hx; simpl. destruct (g x); [reflexivity | exact IH].
Qed.

Lemma keep_truthy_nil ys :
  keep_truthy ys = [] <-> Forall (fun y => truthy y = false) ys.
Proof.
  induction ys as [|[[|c s]|] ys IH]; simpl.
  - split; constructor.
  - rewrite IH. split; intros H; [constructor; [reflexivity|assumption] | inversion H; assumption].
  - split; [discriminate | intros H; inversion H; discriminate].
  - rewrite IH. split; intros H; [constructor; [reflexivity|assumption] | inversion H; assumption].
Qed.

Lemma keep_truthy_app ys zs :
  keep_truthy (ys ++ zs)%list = (keep_truthy ys ++ keep_truthy zs)%list.
Proof.
  induction ys as [|[[|c s]|] ys IH]; simpl; rewrite ?IH; reflexivity.
Qed.

Lemma length_pos_false {A} (l : list A) : (0 <? length l)%nat = false <-> l = [].
Proof. destruct l; simpl; split; intros H; try reflexivity; discriminate. Qed.

(** ** Unfolding the matcher at each recognised alias *)

Lemma validate_types_List text E rest v strict :
  _validate_types (GenericAlias (Some "List") text (E :: rest)) v strict =
  if negb (isinstance v "list")
  then Return (Some ("must be an instance of array, but received "
                     ++ str_class (type_of v)))
  else
    errors <- comprehension (fun x => _validate_types E x strict) (list_items v) ;;
    if (0 <? length (keep_truthy errors))%nat
    then Return (Some ("must be an instance of " ++ text
                       ++ ", but there are some errors: "
                       ++ str_list (keep_truthy errors)))
    else Return None.
Proof. reflexivity. Qed.

Lemma validate_types_Dict text K V rest m strict :
  _validate_types (GenericAlias (Some "Dict") text (K :: V :: rest)) m strict =
  if negb (isinstance m "dict")
  then Return (Some ("must be an instance of dict, but received "
                     ++ str_class (type_of m)))
  else
    key_errors <- comprehension (fun k => _validate_types K k strict) (keys m) ;;
    val_errors <- comprehension (fun v => _validate_types V v strict) (values m) ;;
    if ((0 <? length (keep_truthy key_errors))
        && (0 <? length (keep_truthy val_errors)))%nat
    then Return (Some ("must be an instance of " ++ text
                       ++ ", but there are some errors in keys and values. "
                       ++ "key errors: " ++ str_list (keep_truthy key_errors)
                       ++ ", value errors: " ++ str_list (keep_truthy val_errors)))
    else if (0 <? length (keep_truthy key_errors))%nat
    then Return (Some ("must be an instance of " ++ text
                       ++ ", but there are some errors in keys: "
                       ++ str_list (keep_truthy key_errors)))
    else if (0 <? length (keep_truthy val_errors))%nat
    then Return (Some ("must be an instance of " ++ text
                       ++ ", but there are some errors in values: "
                       ++ str_list (keep_truthy val_errors)))
    else Return None.
Proof. reflexivity. Qed.

Lemma validate_types_Callable text args v strict :
  _validate_types (GenericAlias (Some "Callable") text args) v strict =
  if negb (isinstance v FunctionType)
  then Return (Some ("must be an instance of Callable, but received "
                     ++ str_class (type_of v)))
  else Return None.
Proof. reflexivity. Qed.

Lemma validate_types_Union name text alts v strict :
  mappings_get name = None ->
  String.prefix "typing.Union" text = true ->
  _validate_types (GenericAlias name text alts) v strict =
  (is_valid <- any (fun t => r <- _validate_types t v strict ;; Return (is_None r)) alts ;;
   if negb is_valid
   then Return (Some ("must be an instance of " ++ text ++ ", but received " ++ str v))
   else Return None).
Proof.
  intros Hname Htext. simpl. unfold _validate_sequential_types.
  rewrite Hname. simpl str_hint. rewrite Htext. reflexivity.
Qed.

Lemma validate_types_unknown name text args v strict :
  mappings_get name = None ->
  String.prefix "typing.Union" text = false ->
  _validate_types (GenericAlias name text args) v strict =
  if strict
  then Raise (RuntimeError ("Unknown type of " ++ text
                            ++ " (_name = " ++ str_name name ++ ")"))
  else Return None.
Proof.
  intros Hname Htext. simpl. unfold _validate_sequential_types.
  rewrite Hname. simpl str_hint. rewrite Htext. reflexivity.
Qed.

(** ** Induction over annotations, through [__args__] *)

Section TypeHintInduction.
Variable P : type_hint -> Prop.
Hypothesis HClass : forall cls, P (Class cls).
Hypothesis HAlias : forall name text args, Forall P args -> P (GenericAlias name text args).
Hypothesis HOther : forall text, P (OtherHint text).

Fixpoint type_hint_nested_ind (t : type_hint) : P t :=
  match t with
  | Class cls => HClass cls
  | GenericAlias name text args =>
      HAlias name text args
        ((fix go (l : list type_hint) : Forall P l :=
            match l with
            | [] => Forall_nil P
            | x :: l' => Forall_cons x (type_hint_nested_ind x) (go l')
            end) args)
  | OtherHint text => HOther text
  end.
End TypeHintInduction.

Ltac break_match :=
  match goal with
  | |- context [match ?x with _ => _ end] => destruct x eqn:?
  end.

Ltac invert_Return :=
  match goal with
  | H : Return _ = Return _ |- _ => inversion H; subst; clear H
  | H : Raise _ = Raise _ |- _ => inversion H; subst; clear H
  | H : Return _ = Raise _ |- _ => discriminate H
  | H : Raise _ = Return _ |- _ => discriminate H
  end.

(** Every message the matcher returns is a non-empty string, so the
    filters [[x for x in errors if x]] drop exactly the [None]s. *)
Lemma validate_types_truthy t v strict r :
  _validate_types t v strict = Return r -> truthy r = negb (is_None r).
Proof.
  destruct t as [cls|name text args|text]; simpl.
  - unfold _validate_type. destruct (negb _); intros H; invert_Return; reflexivity.
  - unfold _validate_sequential_types, _validate_typing_list, _validate_typing_dict,
      _validate_typing_callable, bind.
    repeat break_match; intros H; try invert_Return; reflexivity.
  - intros H; invert_Return; reflexivity.
Qed.

Lemma keep_truthy_passes t strict l ys :
  Forall2 (fun x y => _validate_types t x strict = Return y) l ys ->
  (keep_truthy ys = [] <-> Forall (passes t strict) l).
Proof.
  intros H. rewrite keep_truthy_nil. unfold passes.
  induction H as [|x y l ys Hxy _ IH].
  - split; constructor.
  - pose proof (validate_types_truthy _ _ _ _ Hxy) as Ht.
    split; intros HF; inversion HF; subst; constructor; try (apply IH; assumption).
    + rewrite Hxy. destruct y; [|reflexivity]. rewrite Ht in *; discriminate.
    + rewrite Hxy in *. invert_Return. reflexivity.
Qed.

(** The matcher raises no [TypeValidationError]: only the aggregator does. *)
Lemma validate_types_Raise t :
  forall v strict e, _validate_types t v strict = Raise e -> is_TypeValidationError e = false.
Proof.
  induction t as [cls|name text args IH|text] using type_hint_nested_ind;
    intros v strict e; simpl; try discriminate.
  unfold _validate_sequential_types.
  destruct (mappings_get name) as [[]|].
  - unfold _validate_typing_list. destruct (negb _); [discriminate|].
    destruct args as [|E rest]; [intros H; invert_Return; reflexivity|].
    inversion IH as [|? ? HE _]; subst.
    destruct (comprehension _ _) as [ys|e'] eqn:Hc; simpl.
    + destruct (0 <? _)%nat; discriminate.
    + intros H; invert_Return. apply comprehension_Raise in Hc.
      apply Exists_exists in Hc as (x & _ & Hx). eapply HE; eassumption.
  - unfold _validate_typing_dict. destruct (negb _); [discriminate|].
    destruct args as [|K [|V rest]]; try (intros H; invert_Return; reflexivity).
    inversion IH as [|? ? HK IH']; subst. inversion IH' as [|? ? HV _]; subst.
    destruct (comprehension _ (keys v)) as [ks|e'] eqn:Hk; simpl.
    + destruct (comprehension _ (values v)) as [vs|e'] eqn:Hv; simpl.
      * repeat break_match; discriminate.
      * intros H; invert_Return. apply comprehension_Raise in Hv.
        apply Exists_exists in Hv as (x & _ & Hx). eapply HV; eassumption.
    + intros H; invert_Return. apply comprehension_Raise in Hk.
      apply Exists_exists in Hk as (x & _ & Hx). eapply HK; eassumption.
  - unfold _validate_typing_callable. destruct (negb _); discriminate.
  - destruct (String.prefix _ _).
    + destruct (any _ args) as [b|e'] eqn:Ha; simpl.
      * destruct (negb b); discriminate.
      * intros H; invert_Return. clear -IH Ha.
        induction args as [|t args IHargs]; [discriminate|].
        inversion IH as [|? ? Ht IH']; subst.
        rewrite any_cons in Ha.
        destruct (_validate_types t v strict) as [r|e'] eqn:Hr; simpl in Ha.
        -- destruct (is_None r); [discriminate|]. apply IHargs; assumption.
        -- invert_Return. eapply Ht; eassumption.
    + destruct strict; [|discriminate]. intros H; invert_Return; reflexivity.
Qed.

(** ** Facts about message texts *)

Lemma last_char_app a c b : last_char (a ++ String c b) = last_char (String c b).
Proof.
  induction a as [|x a IH]; [reflexivity|].
  change (String x a ++ String c b) with (String x (a ++ String c b)).
  destruct (a ++ String c b) eqn:Hab.
  - destruct a; discriminate.
  - simpl. exact IH.
Qed.

Lemma last_char_snoc a c : last_char (a ++ String c "") = Some c.
Proof. rewrite last_char_app. reflexivity. Qed.

Lemma append_inj_l p a b : p ++ a = p ++ b -> a = b.
Proof.
  induction p as [|c p IH]; simpl; intros H; [assumption|].
  inversion H. apply IH; assumption.
Qed.

Lemma append_assoc a b c : (a ++ b) ++ c = a ++ (b ++ c).
Proof. induction a as [|x a IH]; simpl; [|rewrite IH]; reflexivity. Qed.

Lemma last_char_app_nonempty a s : s <> "" -> last_char (a ++ s) = last_char s.
Proof. destruct s as [|c b]; [congruence | intros _; apply last_char_app]. Qed.

Lemma str_list_last errors : last_char (str_list errors) = Some "]"%char.
Proof.
  unfold str_list.
  rewrite <- append_assoc. apply last_char_snoc.
Qed.

Lemma str_class_last cls : last_char (str_class cls) = Some ">"%char.
Proof.
  unfold str_class.
  change "'>" with ("'" ++ String ">" "").
  rewrite <- !append_assoc. apply last_char_snoc.
Qed.

Lemma last_char_Some_nonempty s c : last_char s = Some c -> s <> "".
Proof. intros H E; subst; discriminate. Qed.

Lemma elements_message_last text errors :
  last_char ("must be an instance of " ++ text ++ ", but there are some errors: "
             ++ str_list errors) = Some "]"%char.
Proof.
  rewrite <- !append_assoc.
  rewrite last_char_app_nonempty by (eapply last_char_Some_nonempty, str_list_last).
  apply str_list_last.
Qed.

Lemma container_message_last cls :
  last_char ("must be an instance of array, but received " ++ str_class cls)
  = Some ">"%char.
Proof.
  rewrite last_char_app_nonempty by (eapply last_char_Some_nonempty, str_class_last).
  apply str_class_last.
Qed.

(** ** Scalars *)

(** C9: a value matches the class [T] exactly when it is an instance of
    [T]; otherwise the message carries [T] and the type of the value. *)
Theorem scalar_match_iff_isinstance (T : pyclass) (v : pyobj) (strict : bool) :
  (passes (Class T) strict v <-> isinstance v T = true)
  /\ _validate_types (Class T) v strict =
     (if isinstance v T then Return None
      else Return (Some ("must be an instance of " ++ str_class T
                         ++ ", but received " ++ str_class (type_of v)))).
Proof.
  unfold passes; simpl; unfold _validate_type.
  destruct (isinstance v T); simpl; split; try reflexivity;
    split; intros H; try reflexivity; discriminate.
Qed.

(** ** Callable *)

(** C4, as the code has it: a value matches [Callable] exactly when it is an
    instance of the function type, the type of a [lambda]; otherwise the
    message names [Callable] and the type of the value. *)
Theorem callable_match_iff_function (text : string) (args : list type_hint)
    (v : pyobj) (strict : bool) :
  let Callable := GenericAlias (Some "Callable") text args in
  (passes Callable strict v <-> isinstance v FunctionType = true)
  /\ _validate_types Callable v strict =
     (if isinstance v FunctionType then Return None
      else Return (Some ("must be an instance of Callable, but received "
                         ++ str_class (type_of v))))
  /\ (forall name addr, passes Callable strict (VFunction name addr)).
Proof.
  cbv zeta. unfold passes. rewrite validate_types_Callable.
  destruct (isinstance v FunctionType); simpl; repeat split;
    intros; try reflexivity; try discriminate.
Qed.

(** C4 fails as stated: the built-in [len] is invocable and is rejected. *)
Lemma callable_rejects_builtin :
  callable (VBuiltin "len") = true
  /\ _validate_types (GenericAlias (Some "Callable") "typing.Callable" [])
       (VBuiltin "len") false
     = Return (Some "must be an instance of Callable, but received <class 'builtin_function_or_method'>").
Proof. split; reflexivity. Qed.

(** ** Sequences *)

(** C10: the container check of a [List] alias lets through the instances
    of [list] and nothing else; a tuple, a string or a range gets the
    container message whatever it holds, and the empty list passes. *)
Theorem list_container_check (E : type_hint) (text : string) (v : pyobj) (strict : bool) :
  let Sequence := GenericAlias (Some "List") text [E] in
  (_validate_types Sequence v strict
     = Return (Some ("must be an instance of array, but received "
                     ++ str_class (type_of v)))
   <-> isinstance v "list" = false)
  /\ (forall items, _validate_types Sequence (VTuple items) strict
        = Return (Some "must be an instance of array, but received <class 'tuple'>"))
  /\ (forall s, _validate_types Sequence (VStr s) strict
        = Return (Some "must be an instance of array, but received <class 'str'>"))
  /\ (forall addr, _validate_types Sequence (VInstance "range" false (VObject addr)) strict
        = Return (Some "must be an instance of array, but received <class 'range'>"))
  /\ _validate_types Sequence (VList []) strict = Return None.
Proof.
  cbv zeta. repeat split; try reflexivity.
  - rewrite validate_types_List.
    destruct (isinstance v "list"); cbn [negb]; [|reflexivity].
    destruct (comprehension _ _) as [ys|e]; cbn [bind]; [|discriminate].
    destruct (0 <? _)%nat; [|discriminate].
    intros H.
    apply (f_equal (fun r => match r with
                             | Return (Some m) => last_char m
                             | _ => None
                             end)) in H.
    cbv beta iota in H.
    rewrite elements_message_last, container_message_last in H. discriminate H.
  - intros H. rewrite validate_types_List, H. reflexivity.
Qed.

Lemma Forall2_passes t strict l :
  Forall (passes t strict) l ->
  Forall2 (fun x y => _validate_types t x strict = Return y) l (map (fun _ => None) l).
Proof. induction 1; simpl; constructor; assumption. Qed.

Lemma keep_truthy_Nones {A} (l : list A) : keep_truthy (map (fun _ => None) l) = [].
Proof. induction l; simpl; auto. Qed.

Lemma keep_truthy_fails t strict v msg :
  fails_with t strict v msg -> keep_truthy [Some msg] = [msg].
Proof.
  intros H. apply validate_types_truthy in H.
  destruct msg; [discriminate | reflexivity].
Qed.

Lemma sequence_outcomes (E : type_hint) (text : string) (c : pyobj) (strict : bool) outcomes :
  isinstance c "list" = true ->
  Forall2 (fun x y => _validate_types E x strict = Return y) (list_items c) outcomes ->
  _validate_types (GenericAlias (Some "List") text [E]) c strict =
  if (0 <? length (keep_truthy outcomes))%nat
  then Return (Some ("must be an instance of " ++ text
                     ++ ", but there are some errors: "
                     ++ str_list (keep_truthy outcomes)))
  else Return None.
Proof.
  intros Hc Hout. rewrite validate_types_List, Hc. cbn [negb].
  apply comprehension_Return in Hout. rewrite Hout. reflexivity.
Qed.

(** C5: a value matches [List[E]] exactly when it is a list whose every
    element matches [E]; one failing element among passing ones fails the
    whole, and the message carries the alias and the list of element
    errors. *)
Theorem sequence_match (E : type_hint) (text : string) (c : pyobj) (strict : bool) :
  let Sequence := GenericAlias (Some "List") text [E] in
  (passes Sequence strict c <->
     isinstance c "list" = true /\ Forall (passes E strict) (list_items c))
  /\ (forall pre bad post msg,
        isinstance c "list" = true ->
        list_items c = (pre ++ bad :: post)%list ->
        Forall (passes E strict) pre ->
        Forall (passes E strict) post ->
        fails_with E strict bad msg ->
        fails_with Sequence strict c
          ("must be an instance of " ++ text ++ ", but there are some errors: "
           ++ str_list [msg]))
  /\ (forall outcomes,
        isinstance c "list" = true ->
        Forall2 (fun x y => _validate_types E x strict = Return y)
                (list_items c) outcomes ->
        ~ Forall (passes E strict) (list_items c) ->
        fails_with Sequence strict c
          ("must be an instance of " ++ text ++ ", but there are some errors: "
           ++ str_list (keep_truthy outcomes))).
Proof.
  cbv zeta.
  assert (Hgen : forall outcomes,
             isinstance c "list" = true ->
             Forall2 (fun x y => _validate_types E x strict = Return y)
                     (list_items c) outcomes ->
             ~ Forall (passes E strict) (list_items c) ->
             fails_with (GenericAlias (Some "List") text [E]) strict c
               ("must be an instance of " ++ text ++ ", but there are some errors: "
                ++ str_list (keep_truthy outcomes))).
  { intros outcomes Hc Hout Hnot. unfold fails_with.
    rewrite (sequence_outcomes _ _ _ _ _ Hc Hout).
    destruct (0 <? length (keep_truthy outcomes))%nat eqn:Hlen; [reflexivity|].
    exfalso. apply Hnot. apply (keep_truthy_passes _ _ _ _ Hout).
    apply length_pos_false; assumption. }
  split; [|split].
  - unfold passes at 1. rewrite validate_types_List.
    destruct (isinstance c "list"); cbn [negb].
    + destruct (comprehension _ _) as [ys|e] eqn:Hcomp; cbn [bind].
      * apply comprehension_Return in Hcomp.
        pose proof (keep_truthy_passes _ _ _ _ Hcomp) as Hk.
        destruct (0 <? length (keep_truthy ys))%nat eqn:Hlen.
        -- split; [discriminate|]. intros [_ HF]. apply Hk in HF.
           rewrite HF in Hlen. discriminate.
        -- apply length_pos_false in Hlen. split; [|reflexivity].
           intros _. split; [reflexivity|]. apply Hk; assumption.
      * split; [discriminate|]. intros [_ HF].
        apply Forall2_passes, comprehension_Return in HF.
        rewrite HF in Hcomp. discriminate.
    + split; [discriminate | intros [H _]; discriminate].
  - intros pre bad post msg Hc Hitems Hpre Hpost Hbad.
    assert (Hout : Forall2 (fun x y => _validate_types E x strict = Return y)
                     (list_items c)
                     (map (fun _ => None) pre ++ Some msg :: map (fun _ => None) post)%list).
    { rewrite Hitems. apply Forall2_app; [apply Forall2_passes; assumption|].
      constructor; [exact Hbad | apply Forall2_passes; assumption]. }
    assert (Hk : keep_truthy (map (fun _ => None) pre ++ Some msg :: map (fun _ => None) post)%list
                 = [msg]).
    { rewrite keep_truthy_app, keep_truthy_Nones.
      change (Some msg :: map (fun _ => None) post)
        with ([Some msg] ++ map (fun _ => None) post)%list.
      rewrite keep_truthy_app, keep_truthy_Nones, (keep_truthy_fails _ _ _ _ Hbad).
      reflexivity. }
    rewrite <- Hk. apply Hgen; [assumption..|].
    rewrite Hitems. intros HF. apply Forall_app in HF as [_ HF].
    inversion HF as [|? ? Hb _]; subst. unfold passes, fails_with in *.
    rewrite Hbad in Hb. discriminate.
  - exact Hgen.
Qed.

Lemma sequence_match_witness :
  fails_with (GenericAlias (Some "List") "typing.List[int]" [Class "int"]) false
    (VList [VInt 1; VStr "2"; VInt 3])
    ("must be an instance of typing.List[int], but there are some errors: "
     ++ str_list ["must be an instance of <class 'int'>, but received <class 'str'>"]).
Proof.
  apply (proj1 (proj2 (sequence_match (Class "int") "typing.List[int]"
                         (VList [VInt 1; VStr "2"; VInt 3]) false))
           [VInt 1] (VStr "2") [VInt 3]).
  - reflexivity.
  - reflexivity.
  - repeat constructor.
  - repeat constructor.
  - reflexivity.
Defined.

(** ** Mappings *)

Lemma mapping_outcomes (K V : type_hint) (text : string) (m : pyobj) (strict : bool)
    key_outcomes val_outcomes :
  isinstance m "dict" = true ->
  Forall2 (fun k y => _validate_types K k strict = Return y) (keys m) key_outcomes ->
  Forall2 (fun v y => _validate_types V v strict = Return y) (values m) val_outcomes ->
  _validate_types (GenericAlias (Some "Dict") text [K; V]) m strict =
  match keep_truthy key_outcomes, keep_truthy val_outcomes with
  | _ :: _, _ :: _ =>
      Return (Some ("must be an instance of " ++ text
                    ++ ", but there are some errors in keys and values. "
                    ++ "key errors: " ++ str_list (keep_truthy key_outcomes)
                    ++ ", value errors: " ++ str_list (keep_truthy val_outcomes)))
  | _ :: _, [] =>
      Return (Some ("must be an instance of " ++ text
                    ++ ", but there are some errors in keys: "
                    ++ str_list (keep_truthy key_outcomes)))
  | [], _ :: _ =>
      Return (Some ("must be an instance of " ++ text
                    ++ ", but there are some errors in values: "
                    ++ str_list (keep_truthy val_outcomes)))
  | [], [] => Return None
  end.
Proof.
  intros Hm Hk Hv. rewrite validate_types_Dict, Hm. cbn [negb].
  apply comprehension_Return in Hk, Hv. rewrite Hk. cbn [bind]. rewrite Hv. cbn [bind].
  destruct (keep_truthy key_outcomes), (keep_truthy val_outcomes); reflexivity.
Qed.

Lemma mapping_passes_iff (K V : type_hint) (text : string) (m : pyobj) (strict : bool) :
  isinstance m "dict" = true ->
  (passes (GenericAlias (Some "Dict") text [K; V]) strict m <->
   Forall (passes K strict) (keys m) /\ Forall (passes V strict) (values m)).
Proof.
  intros Hm. unfold passes at 1.
  destruct (comprehension (fun k => _validate_types K k strict) (keys m))
    as [ks|e] eqn:Hk.
  - destruct (comprehension (fun v => _validate_types V v strict) (values m))
      as [vs|e] eqn:Hv.
    + apply comprehension_Return in Hk, Hv.
      rewrite (mapping_outcomes _ _ _ _ _ _ _ Hm Hk Hv).
      rewrite <- (keep_truthy_passes _ _ _ _ Hk), <- (keep_truthy_passes _ _ _ _ Hv).
      destruct (keep_truthy ks), (keep_truthy vs); split;
        try discriminate; try (intros [? ?]; discriminate); auto.
    + split.
      * rewrite validate_types_Dict, Hm. cbn [negb]. rewrite Hk, Hv. discriminate.
      * intros [_ HF]. apply Forall2_passes, comprehension_Return in HF.
        rewrite HF in Hv. discriminate.
  - split.
    + rewrite validate_types_Dict, Hm. cbn [negb]. rewrite Hk. discriminate.
    + intros [HF _]. apply Forall2_passes, comprehension_Return in HF.
      rewrite HF in Hk. discriminate.
Qed.

(** C6: a dict matches [Dict[K, V]] exactly when every key matches [K] and
    every value matches [V]; keys and values are two pools, so pairing the
    same keys with the same values in another way changes nothing. *)
Theorem mapping_match_iff (K V : type_hint) (text : string) (m : pyobj) (strict : bool) :
  isinstance m "dict" = true ->
  let Mapping := GenericAlias (Some "Dict") text [K; V] in
  (passes Mapping strict m <->
   Forall (passes K strict) (keys m) /\ Forall (passes V strict) (values m))
  /\ (forall m', isinstance m' "dict" = true ->
        Permutation (keys m) (keys m') ->
        Permutation (values m) (values m') ->
        (passes Mapping strict m <-> passes Mapping strict m')).
Proof.
  intros Hm. cbv zeta. split; [apply mapping_passes_iff; assumption|].
  intros m' Hm' Hk Hv.
  rewrite (mapping_passes_iff K V text m strict Hm).
  rewrite (mapping_passes_iff K V text m' strict Hm').
  split; intros [HK HV]; split.
  - exact (Permutation_Forall Hk HK).
  - exact (Permutation_Forall Hv HV).
  - exact (Permutation_Forall (Permutation_sym Hk) HK).
  - exact (Permutation_Forall (Permutation_sym Hv) HV).
Qed.

Lemma mapping_match_iff_witness :
  passes (GenericAlias (Some "Dict") "typing.Dict[str, int]" [Class "str"; Class "int"])
    false (VDict [(VStr "a", VInt 1); (VStr "b", VInt 2)])
  <-> passes (GenericAlias (Some "Dict") "typing.Dict[str, int]" [Class "str"; Class "int"])
    false (VDict [(VStr "a", VInt 2); (VStr "b", VInt 1)]).
Proof.
  apply (proj2 (mapping_match_iff (Class "str") (Class "int") "typing.Dict[str, int]"
                  (VDict [(VStr "a", VInt 1); (VStr "b", VInt 2)]) false eq_refl)).
  - reflexivity.
  - apply Permutation_refl.
  - apply perm_swap.
Defined.

(** C7: the message of a failing [Dict] match has three forms, chosen by
    which of the key errors and the value errors are there; the keys-only
    message differs from every both-pools message and from every
    values-only message for the same alias. *)
Theorem mapping_message_branches (K V : type_hint) (text : string) (m : pyobj)
    (strict : bool) (key_outcomes val_outcomes : list (option string)) :
  isinstance m "dict" = true ->
  Forall2 (fun k y => _validate_types K k strict = Return y) (keys m) key_outcomes ->
  Forall2 (fun v y => _validate_types V v strict = Return y) (values m) val_outcomes ->
  let key_errors := keep_truthy key_outcomes in
  let val_errors := keep_truthy val_outcomes in
  let both ke ve :=
    "must be an instance of " ++ text
    ++ ", but there are some errors in keys and values. "
    ++ "key errors: " ++ str_list ke ++ ", value errors: " ++ str_list ve in
  let keys_only ke :=
    "must be an instance of " ++ text ++ ", but there are some errors in keys: "
    ++ str_list ke in
  let values_only ve :=
    "must be an instance of " ++ text ++ ", but there are some errors in values: "
    ++ str_list ve in
  (key_errors = [] <-> Forall (passes K strict) (keys m))
  /\ (val_errors = [] <-> Forall (passes V strict) (values m))
  /\ _validate_types (GenericAlias (Some "Dict") text [K; V]) m strict =
     match key_errors, val_errors with
     | _ :: _, _ :: _ => Return (Some (both key_errors val_errors))
     | _ :: _, [] => Return (Some (keys_only key_errors))
     | [], _ :: _ => Return (Some (values_only val_errors))
     | [], [] => Return None
     end
  /\ (forall ke ke' ve', keys_only ke <> both ke' ve')
  /\ (forall ke ve', keys_only ke <> values_only ve')
  /\ (forall ve ke' ve', values_only ve <> both ke' ve').
Proof.
  intros Hm Hk Hv. cbv zeta.
  split; [apply (keep_truthy_passes _ _ _ _ Hk)|].
  split; [apply (keep_truthy_passes _ _ _ _ Hv)|].
  split; [apply mapping_outcomes; assumption|].
  repeat split; intros; intros H;
    apply append_inj_l, append_inj_l in H; discriminate H.
Qed.

Lemma mapping_message_branches_witness :
  _validate_types
    (GenericAlias (Some "Dict") "typing.Dict[str, int]" [Class "str"; Class "int"])
    (VDict [(VStr "a", VInt 1); (VInt 2, VInt 3)]) false
  = Return (Some ("must be an instance of typing.Dict[str, int], but there are some errors in keys: "
                  ++ str_list ["must be an instance of <class 'str'>, but received <class 'int'>"])).
Proof.
  apply (proj1 (proj2 (proj2
    (mapping_message_branches (Class "str") (Class "int") "typing.Dict[str, int]"
       (VDict [(VStr "a", VInt 1); (VInt 2, VInt 3)]) false
       [None; Some "must be an instance of <class 'str'>, but received <class 'int'>"]
       [None; None]
       eq_refl
       ltac:(repeat constructor) ltac:(repeat constructor))))).
Defined.

(** ** Unions *)

Lemma passesb_true strict v t : passesb strict v t = true <-> passes t strict v.
Proof.
  unfold passesb, passes.
  destruct (_validate_types t v strict) as [[m|]|e]; split;
    intros H; try reflexivity; discriminate.
Qed.

Lemma union_outcome name text alts v strict :
  mappings_get name = None ->
  String.prefix "typing.Union" text = true ->
  Forall (fun t => returns t strict v) alts ->
  _validate_types (GenericAlias name text alts) v strict =
  if existsb (passesb strict v) alts then Return None
  else Return (Some ("must be an instance of " ++ text ++ ", but received " ++ str v)).
Proof.
  intros Hname Htext Hret.
  rewrite (validate_types_Union _ _ _ _ _ Hname Htext).
  rewrite (any_total _ (passesb strict v)).
  - cbn [bind]. destruct (existsb _ _); reflexivity.
  - eapply Forall_impl; [|exact Hret].
    intros t [r Hr]. unfold passesb. rewrite Hr. destruct r; reflexivity.
Qed.

Lemma existsb_passesb strict v alts :
  existsb (passesb strict v) alts = true <-> Exists (fun t => passes t strict v) alts.
Proof.
  rewrite existsb_exists, Exists_exists.
  split; intros (t & Hin & Ht); exists t; split; try assumption;
    apply passesb_true; assumption.
Qed.

Lemma union_passes_iff name text alts v strict :
  mappings_get name = None ->
  String.prefix "typing.Union" text = true ->
  Forall (fun t => returns t strict v) alts ->
  (passes (GenericAlias name text alts) strict v
   <-> Exists (fun t => passes t strict v) alts).
Proof.
  intros Hname Htext Hret. unfold passes at 1.
  rewrite (union_outcome _ _ _ _ _ Hname Htext Hret), <- existsb_passesb.
  destruct (existsb _ _); split; intros H; try reflexivity; discriminate.
Qed.

(** C8, as the code has it: when no alternative raises for the value, a
    union matches exactly when some alternative does, whatever the order of
    the alternatives; when none does, the message carries the text of the
    union and of the value. *)
Theorem union_match_when_alternatives_return (name : option string) (text : string)
    (alts : list type_hint) (v : pyobj) (strict : bool) :
  mappings_get name = None ->
  String.prefix "typing.Union" text = true ->
  Forall (fun t => returns t strict v) alts ->
  let Union := GenericAlias name text alts in
  (passes Union strict v <-> Exists (fun t => passes t strict v) alts)
  /\ (forall name' text' alts',
        mappings_get name' = None ->
        String.prefix "typing.Union" text' = true ->
        Permutation alts alts' ->
        (passes (GenericAlias name' text' alts') strict v <-> passes Union strict v))
  /\ (~ Exists (fun t => passes t strict v) alts ->
      fails_with Union strict v
        ("must be an instance of " ++ text ++ ", but received " ++ str v)).
Proof.
  intros Hname Htext Hret. cbv zeta.
  split; [apply union_passes_iff; assumption|]. split.
  - intros name' text' alts' Hname' Htext' Hperm.
    rewrite (union_passes_iff _ _ _ _ _ Hname Htext Hret).
    rewrite (union_passes_iff _ _ _ _ _ Hname' Htext' (Permutation_Forall Hperm Hret)).
    rewrite !Exists_exists.
    split; intros (t & Hin & Ht); exists t; split; try assumption.
    + eapply Permutation_in; [apply Permutation_sym|]; eassumption.
    + eapply Permutation_in; eassumption.
  - intros Hnone. unfold fails_with.
    rewrite (union_outcome _ _ _ _ _ Hname Htext Hret).
    destruct (existsb _ _) eqn:Hex; [|reflexivity].
    exfalso. apply Hnone, existsb_passesb. assumption.
Qed.

Lemma union_match_when_alternatives_return_witness :
  fails_with (GenericAlias None "typing.Union[int, str]" [Class "int"; Class "str"])
    true (VList [VInt 3])
    ("must be an instance of typing.Union[int, str], but received "
     ++ str (VList [VInt 3])).
Proof.
  apply (proj2 (proj2
    (union_match_when_alternatives_return None "typing.Union[int, str]"
       [Class "int"; Class "str"] (VList [VInt 3]) true eq_refl eq_refl
       ltac:(repeat constructor; eexists; reflexivity)))).
  intros H. apply existsb_passesb in H. discriminate H.
Defined.

(** C8 fails as stated: in strict mode, with an alias the matcher does not
    know among the alternatives, [3] matches the alternative [int] and the
    union raises; with the alternatives swapped the union matches. *)
Lemma union_order_changes_outcome :
  let Tuple := GenericAlias (Some "Tuple") "typing.Tuple[int]" [Class "int"] in
  let Union1 := GenericAlias None "typing.Union[typing.Tuple[int], int]" [Tuple; Class "int"] in
  let Union2 := GenericAlias None "typing.Union[int, typing.Tuple[int]]" [Class "int"; Tuple] in
  passes (Class "int") true (VInt 3)
  /\ Permutation [Tuple; Class "int"] [Class "int"; Tuple]
  /\ _validate_types Union1 (VInt 3) true
     = Raise (RuntimeError "Unknown type of typing.Tuple[int] (_name = Tuple)")
  /\ ~ passes Union1 true (VInt 3)
  /\ passes Union2 true (VInt 3).
Proof.
  cbv zeta. repeat split; try reflexivity.
  - apply perm_swap.
  - unfold passes. discriminate.
Qed.

(** ** Matches that cannot raise *)


(** ** Annotations the matcher does not know *)

Lemma validate_fields_cons target strict field rest errors :
  validate_fields target strict (field :: rest) errors =
  (value <- getattr target (field_name field) ;;
   err <- _validate_types (field_type field) value strict ;;
   validate_fields target strict rest
     (match err with
      | Some e => dict_set errors (field_name field) e
      | None => errors
      end)).
Proof. reflexivity. Qed.

Lemma validate_fields_unknown_raises target name text args fields :
  mappings_get name = None ->
  String.prefix "typing.Union" text = false ->
  Exists (fun f => field_type f = GenericAlias name text args) fields ->
  forall errors, exists e,
    validate_fields target true fields errors = Raise e
    /\ is_TypeValidationError e = false.
Proof.
  intros Hname Htext. induction 1 as [f rest Hf|f rest _ IH]; intros errors;
    rewrite validate_fields_cons;
    destruct (getattr target (field_name f)) as [value|e] eqn:Hget;
    try (exists e; split; [reflexivity|];
         unfold getattr in Hget; destruct (find _ _); inversion Hget; reflexivity);
    cbn [bind].
  - rewrite Hf, (validate_types_unknown _ _ _ _ _ Hname Htext).
    eexists; split; reflexivity.
  - destruct (_validate_types (field_type f) value true) as [err|e] eqn:Hv; cbn [bind].
    + apply IH.
    + exists e; split; [reflexivity|]. eapply validate_types_Raise; eassumption.
Qed.

(** C2, as the code has it: a generic alias that is neither [List], [Dict],
    [Callable] nor a union raises [RuntimeError] in strict mode, whatever
    the value, and validation of a record with such a field ends in an
    exception that is not a [TypeValidationError]; in non-strict mode the
    alias matches every value and leaves the recorded errors as they are. *)
Theorem unknown_alias_strict_raises (name : option string) (text : string)
    (args : list type_hint) :
  mappings_get name = None ->
  String.prefix "typing.Union" text = false ->
  let Unknown := GenericAlias name text args in
  (forall v, _validate_types Unknown v true
             = Raise (RuntimeError ("Unknown type of " ++ text
                                    ++ " (_name = " ++ str_name name ++ ")")))
  /\ (forall v, passes Unknown false v)
  /\ (forall target,
        Exists (fun f => field_type f = Unknown) (dataclass_fields target) ->
        exists e, dataclass_type_validator target true = Raise e
                  /\ is_TypeValidationError e = false)
  /\ (forall target fname value rest errors,
        getattr target fname = Return value ->
        validate_fields target false (mkField fname Unknown :: rest) errors
        = validate_fields target false rest errors).
Proof.
  intros Hname Htext. cbv zeta. repeat split.
  - intros v. exact (validate_types_unknown name text args v true Hname Htext).
  - intros v. exact (validate_types_unknown name text args v false Hname Htext).
  - intros target Hex. unfold dataclass_type_validator.
    destruct (validate_fields_unknown_raises target _ _ _ _ Hname Htext Hex [])
      as (e & He & Hkind).
    exists e. rewrite He. split; [reflexivity | assumption].
  - intros target fname value rest errors Hget.
    rewrite validate_fields_cons. cbn [field_name field_type].
    rewrite Hget. cbn [bind].
    rewrite (validate_types_unknown _ _ _ _ _ Hname Htext). reflexivity.
Qed.

Lemma unknown_alias_strict_raises_witness :
  exists e,
    dataclass_type_validator
      (mkInstance [mkField "pair" (GenericAlias (Some "Tuple") "typing.Tuple[int, int]"
                                     [Class "int"; Class "int"])]
                  [("pair", VTuple [VInt 1; VInt 2])]) true = Raise e
    /\ is_TypeValidationError e = false.
Proof.
  apply (proj1 (proj2 (proj2
    (unknown_alias_strict_raises (Some "Tuple") "typing.Tuple[int, int]"
       [Class "int"; Class "int"] eq_refl eq_refl)))).
  left. reflexivity.
Defined.

(** C2 fails as stated: an annotation that is neither a class nor a generic
    alias, such as the forward reference ['Node'] written as a string, passes
    in strict mode too. *)
Lemma forward_reference_passes_when_strict :
  _validate_types (OtherHint "Node") (VInt 1) true = Return None
  /\ dataclass_type_validator
       (mkInstance [mkField "next" (OtherHint "Node")] [("next", VInt 1)]) true
     = Return tt.
Proof. split; reflexivity. Qed.

(** ** Aggregation *)

Lemma dict_set_fresh {V} (d : list (string * V)) k v :
  ~ In k (map fst d) -> dict_set d k v = (d ++ [(k, v)])%list.
Proof.
  induction d as [|[k' v'] d IH]; simpl; intros Hk; [reflexivity|].
  destruct (String.eqb_spec k k') as [->|_]; [exfalso; auto|].
  rewrite IH; auto.
Qed.

Lemma field_error_keys target strict fields :
  map fst (flat_map (field_error target strict) fields)
  = map field_name (filter (failing target strict) fields).
Proof.
  induction fields as [|f fields IH]; [reflexivity|].
  simpl. rewrite map_app, IH. unfold field_error, failing.
  destruct (field_outcome target strict f) as [[msg|]|e]; reflexivity.
Qed.

Lemma validate_fields_returns target strict fields :
  NoDup (map field_name fields) ->
  Forall (fun f => exists r, field_outcome target strict f = Return r) fields ->
  forall errors,
    (forall f, In f fields -> ~ In (field_name f) (map fst errors)) ->
    validate_fields target strict fields errors
    = Return (errors ++ flat_map (field_error target strict) fields)%list.
Proof.
  induction fields as [|f fields IH]; intros Hnd Hret errors Hfresh.
  - simpl. rewrite app_nil_r. reflexivity.
  - inversion Hnd as [|? ? Hnotin Hnd']; subst.
    inversion Hret as [|? ? [r Hr] Hret']; subst.
    rewrite validate_fields_cons. cbn [flat_map]. unfold field_error at 1.
    rewrite Hr. unfold field_outcome in Hr.
    destruct (getattr target (field_name f)) as [value|e]; [|discriminate].
    cbn [bind] in *. rewrite Hr. cbn [bind].
    destruct r as [msg|].
    + rewrite dict_set_fresh by (apply Hfresh; left; reflexivity).
      rewrite IH; try assumption.
      * rewrite <- app_assoc. reflexivity.
      * intros g Hg. rewrite map_app, in_app_iff. intros [Hin|[Heq|[]]].
        -- apply (Hfresh g); [right|]; assumption.
        -- apply Hnotin. simpl in Heq. rewrite Heq. apply in_map; assumption.
    + rewrite IH; try assumption; [reflexivity|].
      intros g Hg. apply Hfresh. right; assumption.
Qed.


(** C1, as the code has it: on a record whose fields have distinct names,
    when the check of no field raises, every field is checked; the record is
    accepted when no field fails and otherwise [TypeValidationError] is
    raised with one entry per failing field, under its name, in the order of
    the fields. *)
Theorem validate_reports_every_failing_field (target : instance) (strict : bool) :
  NoDup (map field_name (dataclass_fields target)) ->
  Forall (fun f => exists r, field_outcome target strict f = Return r)
         (dataclass_fields target) ->
  let fields := dataclass_fields target in
  let errors := flat_map (field_error target strict) fields in
  let k := length (filter (failing target strict) fields) in
  length errors = k
  /\ map fst errors = map field_name (filter (failing target strict) fields)
  /\ NoDup (map fst errors)
  /\ dataclass_type_validator target strict =
     (if (k =? 0)%nat then Return tt
      else Raise (TypeValidationError "Dataclass Type Validation Error" errors)).
Proof.
  intros Hnd Hret. cbv zeta.
  pose proof (field_error_keys target strict (dataclass_fields target)) as Hkeys.
  assert (Hlen : length (flat_map (field_error target strict) (dataclass_fields target))
                 = length (filter (failing target strict) (dataclass_fields target))).
  { rewrite <- (length_map fst), Hkeys, length_map. reflexivity. }
  repeat split; try assumption.
  - rewrite Hkeys. clear -Hnd.
    induction (dataclass_fields target) as [|f fields IH]; simpl; [constructor|].
    inversion Hnd as [|? ? Hnotin Hnd']; subst.
    destruct (failing target strict f); simpl; [|auto].
    constructor; [|auto]. intros Hin. apply Hnotin.
    apply in_map_iff in Hin as (g & Hg & Hin). apply filter_In in Hin as [Hin _].
    rewrite <- Hg. apply in_map; assumption.
  - unfold dataclass_type_validator.
    rewrite (validate_fields_returns _ _ _ Hnd Hret []) by (intros ? ? []).
    cbn [bind app]. rewrite <- Hlen.
    destruct (flat_map _ _); reflexivity.
Qed.

Lemma validate_reports_every_failing_field_witness :
  dataclass_type_validator
    (mkInstance [mkField "name" (Class "str"); mkField "age" (Class "int");
                 mkField "tags" (GenericAlias (Some "List") "typing.List[str]" [Class "str"])]
                [("name", VInt 7); ("age", VInt 30); ("tags", VTuple [])]) false
  = Raise (TypeValidationError "Dataclass Type Validation Error"
             [("name", "must be an instance of <class 'str'>, but received <class 'int'>");
              ("tags", "must be an instance of array, but received <class 'tuple'>")]).
Proof.
  apply (proj2 (proj2 (proj2
    (validate_reports_every_failing_field
       (mkInstance [mkField "name" (Class "str"); mkField "age" (Class "int");
                    mkField "tags" (GenericAlias (Some "List") "typing.List[str]"
                                      [Class "str"])]
                   [("name", VInt 7); ("age", VInt 30); ("tags", VTuple [])]) false
       ltac:(repeat constructor; simpl; intuition discriminate)
       ltac:(repeat constructor; eexists; reflexivity))))).
Defined.

(** C1 fails as stated: in strict mode a field whose annotation the matcher
    does not know ends validation with [RuntimeError]; the field after it,
    which fails its match, is never reported. *)
Lemma strict_unknown_field_stops_validation :
  let Tuple := GenericAlias (Some "Tuple") "typing.Tuple[int]" [Class "int"] in
  let target := mkInstance [mkField "a" Tuple; mkField "b" (Class "int")]
                           [("a", VTuple [VInt 1]); ("b", VStr "x")] in
  filter (failing target true) (dataclass_fields target) = [mkField "b" (Class "int")]
  /\ dataclass_type_validator target true
     = Raise (RuntimeError "Unknown type of typing.Tuple[int] (_name = Tuple)").
Proof. split; reflexivity. Qed.

(** ** The decorator *)

(** With [before_post_init] the decorator wraps [__init__], and the
    generated [__init__] calls [__post_init__] before it returns: the
    validator sees the instance as [__post_init__] left it, exactly as
    without the option. *)
Theorem before_post_init_validates_after_post_init (fields : list Field)
    (post_init : post_init_method) (strict : bool) (args : list pyobj) :
  let cls := dataclass fields (Some post_init) in
  construct (dataclass_validate cls strict true) args =
    (d <- assign_fields fields args [] ;;
     self <- post_init (mkInstance fields d) ;;
     _ <- dataclass_type_validator self strict ;;
     Return self)
  /\ construct (dataclass_validate cls strict true) args
     = construct (dataclass_validate cls strict false) args.
Proof.
  cbv zeta. unfold construct, dataclass_validate, dataclass, generated_init; simpl.
  destruct (assign_fields fields args []) as [d|e]; simpl; [|split; reflexivity].
  destruct (post_init _) as [self|e]; simpl; split; reflexivity.
Qed.

(** C3, on the code: a class with [x: int] and the [__post_init__] above,
    decorated with [before_post_init=True] and built with [x=1].  The
    docstring has validation run before [__post_init__], on fields that are
    valid as assigned; the constructor fails instead, on the string that
    [__post_init__] stored. *)
Lemma before_post_init_sees_post_init_changes :
  let fields := [mkField "x" (Class "int")] in
  let cls := dataclass fields (Some stringify_x) in
  dataclass_type_validator (mkInstance fields [("x", VInt 1)]) false = Return tt
  /\ construct (dataclass_validate cls false true) [VInt 1]
     = Raise (TypeValidationError "Dataclass Type Validation Error"
                [("x", "must be an instance of <class 'int'>, but received <class 'str'>")]).
Proof. split; reflexivity. Qed.

(** * Further properties of the matcher *)

(** ** Exceptions *)



Lemma comprehension_agree {A B} (f g : A -> result B) l ys :
  Forall (fun x => forall y, f x = Return y -> g x = Return y) l ->
  comprehension f l = Return ys -> comprehension g l = Return ys.
Proof.
  intros Hfg Hf. apply comprehension_Return in Hf. apply comprehension_Return.
  induction Hf as [|x y l ys Hxy _ IH]; constructor; inversion Hfg; subst; auto.
Qed.

Lemma any_agree {A} (f g : A -> result bool) l b :
  Forall (fun x => forall c, f x = Return c -> g x = Return c) l ->
  any f l = Return b -> any g l = Return b.
Proof.
  induction 1 as [|x l Hx _ IH]; [trivial|].
  rewrite !any_cons. destruct (f x) as [c|e] eqn:Hf; cbn [bind]; [|discriminate].
  rewrite (Hx c eq_refl). cbn [bind]. destruct c; auto.
Qed.

(** X2: Strict mode only adds exceptions: an outcome returned in strict mode is
    the outcome of non-strict mode. *)
Theorem strict_outcome_is_nonstrict_outcome (t : type_hint) :
  forall v r,
    _validate_types t v true = Return r -> _validate_types t v false = Return r.
Proof.
  induction t as [cls|name text args IH|text] using type_hint_nested_ind;
    intros v r; simpl; trivial.
  unfold _validate_sequential_types.
  destruct (mappings_get name) as [[]|].
  - unfold _validate_typing_list. destruct (negb _); [trivial|].
    destruct args as [|E rest]; [trivial|]. inversion IH as [|? ? HE _]; subst.
    destruct (comprehension _ _) as [ys|e] eqn:Hc; cbn [bind]; [|discriminate].
    rewrite (fun H => comprehension_agree _ (fun x => _validate_types E x false) _ _ H Hc)
      by (apply Forall_forall; intros x _ y; apply HE).
    trivial.
  - unfold _validate_typing_dict. destruct (negb _); [trivial|].
    destruct args as [|K [|V rest]]; trivial.
    inversion IH as [|? ? HK IH']; subst. inversion IH' as [|? ? HV _]; subst.
    destruct (comprehension _ (keys v)) as [ks|e] eqn:Hk; cbn [bind]; [|discriminate].
    destruct (comprehension _ (values v)) as [vs|e] eqn:Hv; cbn [bind]; [|discriminate].
    rewrite (fun H => comprehension_agree _ (fun x => _validate_types K x false) _ _ H Hk)
      by (apply Forall_forall; intros x _ y; apply HK).
    cbn [bind].
    rewrite (fun H => comprehension_agree _ (fun x => _validate_types V x false) _ _ H Hv)
      by (apply Forall_forall; intros x _ y; apply HV).
    trivial.
  - trivial.
  - cbn [str_hint]. destruct (String.prefix _ _); [|discriminate].
    destruct (any _ args) as [b|e] eqn:Ha; cbn [bind]; [|discriminate].
    rewrite (fun H => any_agree _ (fun t => r <- _validate_types t v false ;;
                                            Return (is_None r)) _ _ H Ha); [trivial|].
    eapply Forall_impl; [|exact IH]. cbv beta. intros t Ht c.
    destruct (_validate_types t v true) as [r'|e] eqn:Hr; cbn [bind]; [|discriminate].
    rewrite (Ht v r' Hr). trivial.
Qed.

Lemma strict_outcome_is_nonstrict_outcome_witness :
  _validate_types
    (GenericAlias None "typing.Union[int, typing.Tuple[int]]"
       [Class "int"; GenericAlias (Some "Tuple") "typing.Tuple[int]" [Class "int"]])
    (VInt 3) false = Return None.
Proof.
  apply (strict_outcome_is_nonstrict_outcome
           (GenericAlias None "typing.Union[int, typing.Tuple[int]]"
              [Class "int"; GenericAlias (Some "Tuple") "typing.Tuple[int]" [Class "int"]])
           (VInt 3) None).
  reflexivity.
Defined.

(** ** Messages *)

(** X3: Every message of the matcher starts with the same words. *)
Theorem matcher_messages_start_alike (t : type_hint) (v : pyobj) (strict : bool)
    (msg : string) :
  fails_with t strict v msg ->
  exists rest, msg = "must be an instance of " ++ rest.
Proof.
  unfold fails_with. destruct t as [cls|name text args|text]; simpl.
  - unfold _validate_type. destruct (negb _); intros H; invert_Return.
    eexists; reflexivity.
  - unfold _validate_sequential_types, _validate_typing_list, _validate_typing_dict,
      _validate_typing_callable, bind.
    repeat break_match; intros H; try invert_Return; eexists; reflexivity.
  - discriminate.
Qed.

Lemma matcher_messages_start_alike_witness :
  exists rest,
    "must be an instance of <class 'int'>, but received <class 'str'>"
    = "must be an instance of " ++ rest.
Proof.
  apply (matcher_messages_start_alike (Class "int") (VStr "30") false).
  reflexivity.
Defined.

(** X4: The filters [[x for x in errors if x]] drop the [None]s and nothing
    else: no message of an element is lost, and their order is kept. *)
Theorem truthiness_filter_keeps_every_message (t : type_hint) (strict : bool)
    (l : list pyobj) (outcomes : list (option string)) :
  Forall2 (fun x y => _validate_types t x strict = Return y) l outcomes ->
  keep_truthy outcomes = messages outcomes.
Proof.
  induction 1 as [|x y l ys Hxy _ IH]; [reflexivity|].
  apply validate_types_truthy in Hxy. unfold messages in *. simpl.
  destruct y as [[|c s]|]; simpl; try discriminate; rewrite IH; reflexivity.
Qed.

Lemma truthiness_filter_keeps_every_message_witness :
  keep_truthy [None; Some "must be an instance of <class 'int'>, but received <class 'str'>"]
  = messages [None; Some "must be an instance of <class 'int'>, but received <class 'str'>"].
Proof.
  apply (truthiness_filter_keeps_every_message (Class "int") false
           [VInt 1; VStr "2"]).
  repeat constructor.
Defined.

(** ** The container check of a dict *)

Lemma last_char_app_str_list a errors : last_char (a ++ str_list errors) = Some "]"%char.
Proof.
  rewrite last_char_app_nonempty by (eapply last_char_Some_nonempty, str_list_last).
  apply str_list_last.
Qed.

(** X5: The container message of a [Dict] alias is returned exactly for the
    values that are no instance of [dict]; a list gets it whatever it holds,
    and the empty dict passes. *)
Theorem dict_container_check (K V : type_hint) (text : string) (v : pyobj)
    (strict : bool) :
  let Mapping := GenericAlias (Some "Dict") text [K; V] in
  (_validate_types Mapping v strict
     = Return (Some ("must be an instance of dict, but received "
                     ++ str_class (type_of v)))
   <-> isinstance v "dict" = false)
  /\ (forall items, _validate_types Mapping (VList items) strict
        = Return (Some "must be an instance of dict, but received <class 'list'>"))
  /\ _validate_types Mapping (VDict []) strict = Return None.
Proof.
  cbv zeta. repeat split; try reflexivity.
  - rewrite validate_types_Dict.
    destruct (isinstance v "dict"); cbn [negb]; [|reflexivity].
    destruct (comprehension _ (keys v)) as [ks|e]; cbn [bind]; [|discriminate].
    destruct (comprehension _ (values v)) as [vs|e]; cbn [bind]; [|discriminate].
    assert (Hlast : last_char ("must be an instance of dict, but received "
                               ++ str_class (type_of v)) = Some ">"%char).
    { rewrite last_char_app_nonempty
        by (eapply last_char_Some_nonempty, str_class_last).
      apply str_class_last. }
    repeat break_match; try discriminate; intros H;
      apply (f_equal (fun r => match r with
                               | Return (Some m) => last_char m
                               | _ => None
                               end)) in H;
      cbv beta iota in H; rewrite Hlast in H;
      rewrite <- ?append_assoc in H;
      rewrite last_char_app_str_list in H; discriminate H.
  - intros H. rewrite validate_types_Dict, H. reflexivity.
Qed.

(** ** Subclasses *)

Lemma isinstance_VInstance cls has_call base T :
  isinstance (VInstance cls has_call base) T = String.eqb T cls || isinstance base T.
Proof. reflexivity. Qed.

Lemma isinstance_object v : isinstance v "object" = true.
Proof.
  induction v; try reflexivity.
  rewrite isinstance_VInstance, IHv. apply orb_true_r.
Qed.

Lemma passes_Class T strict v : passes (Class T) strict v <-> isinstance v T = true.
Proof.
  unfold passes. simpl. unfold _validate_type.
  destruct (isinstance v T); simpl; split; intros H; try reflexivity; discriminate.
Qed.

(** X6: A class annotation is matched with [isinstance]: an instance of a
    subclass passes where an instance of its base class does, a [bool]
    passes for [int] but not an [int] for [bool], and everything passes for
    [object]. *)
Theorem scalar_accepts_subclass_instances (T : pyclass) (strict : bool) :
  (forall cls has_call base,
      passes (Class T) strict base ->
      passes (Class T) strict (VInstance cls has_call base))
  /\ (forall b, passes (Class "int") strict (VBool b))
  /\ (forall n, ~ passes (Class "bool") strict (VInt n))
  /\ (forall v, passes (Class "object") strict v).
Proof.
  repeat split.
  - intros cls has_call base H. apply passes_Class in H. apply passes_Class.
    rewrite isinstance_VInstance, H. apply orb_true_r.
  - intros n H. discriminate H.
  - intros v. apply passes_Class, isinstance_object.
Qed.

Lemma scalar_accepts_subclass_instances_witness :
  passes (Class "dict") false
    (VInstance "collections.OrderedDict" false (VDict [])).
Proof.
  apply (proj1 (scalar_accepts_subclass_instances "dict" false)).
  reflexivity.
Defined.

(** ** Where strict mode looks *)

(** X7: An alias the matcher does not know is found in strict mode only when a
    value reaches it: under [List], the empty list passes and every other
    list raises. *)
Theorem list_of_unknown_alias_when_strict (name : option string)
    (text list_text : string) (args : list type_hint) (v : pyobj) :
  mappings_get name = None ->
  String.prefix "typing.Union" text = false ->
  isinstance v "list" = true ->
  _validate_types (GenericAlias (Some "List") list_text [GenericAlias name text args])
                  v true
  = match list_items v with
    | [] => Return None
    | _ :: _ => Raise (RuntimeError ("Unknown type of " ++ text
                                     ++ " (_name = " ++ str_name name ++ ")"))
    end.
Proof.
  intros Hname Htext Hv. rewrite validate_types_List, Hv. cbn [negb].
  destruct (list_items v) as [|x l]; [reflexivity|].
  rewrite comprehension_cons, (validate_types_unknown _ _ _ _ _ Hname Htext).
  reflexivity.
Qed.

Lemma list_of_unknown_alias_when_strict_witness :
  _validate_types
    (GenericAlias (Some "List") "typing.List[typing.Set[int]]"
       [GenericAlias (Some "Set") "typing.Set[int]" [Class "int"]])
    (VList []) true
  = Return None.
Proof.
  apply (list_of_unknown_alias_when_strict (Some "Set") "typing.Set[int]"
           "typing.List[typing.Set[int]]" [Class "int"] (VList [])
           eq_refl eq_refl eq_refl).
Defined.

Lemma any_true_iff {A} (f : A -> result bool) l :
  any f l = Return true <->
  exists pre x post,
    l = (pre ++ x :: post)%list
    /\ Forall (fun a => f a = Return false) pre
    /\ f x = Return true.
Proof.
  induction l as [|a l IH].
  - split; [discriminate|]. intros (pre & x & post & Hl & _). destruct pre; discriminate.
  - rewrite any_cons. destruct (f a) as [[|]|e] eqn:Ha; cbn [bind].
    + split; [|reflexivity]. intros _. exists [], a, l. repeat split; auto.
    + rewrite IH. split.
      * intros (pre & x & post & Hl & Hpre & Hx). exists (a :: pre), x, post.
        subst. repeat split; auto.
      * intros (pre & x & post & Hl & Hpre & Hx). destruct pre as [|b pre].
        -- simpl in Hl. inversion Hl; subst. congruence.
        -- simpl in Hl. inversion Hl; subst. inversion Hpre; subst.
           exists pre, x, post. repeat split; auto.
    + split; [discriminate|]. intros (pre & x & post & Hl & Hpre & Hx).
      destruct pre as [|b pre]; simpl in Hl; inversion Hl; subst.
      * congruence.
      * inversion Hpre; subst. congruence.
Qed.

(** X8: A union matches exactly when some alternative matches and all the
    alternatives before it fail: the alternatives after the first match are
    not tried, whatever they would do. *)
Theorem union_passes_iff_first_match (name : option string) (text : string)
    (alts : list type_hint) (v : pyobj) (strict : bool) :
  mappings_get name = None ->
  String.prefix "typing.Union" text = true ->
  (passes (GenericAlias name text alts) strict v <->
   exists pre t post,
     alts = (pre ++ t :: post)%list
     /\ Forall (fun a => fails a strict v) pre
     /\ passes t strict v).
Proof.
  intros Hname Htext. unfold passes at 1.
  rewrite (validate_types_Union _ _ _ _ _ Hname Htext).
  assert (Hany : forall r : result bool,
             (is_valid <- r ;;
              if negb is_valid
              then Return (Some ("must be an instance of " ++ text
                                 ++ ", but received " ++ str v))
              else Return None) = Return None <-> r = Return true).
  { intros [[|]|e]; cbn [bind negb]; split; intros H; try reflexivity; discriminate. }
  rewrite Hany, any_true_iff.
  assert (Hfalse : forall a,
             (r <- _validate_types a v strict ;; Return (is_None r)) = Return false
             <-> fails a strict v).
  { intros a. unfold fails, fails_with.
    destruct (_validate_types a v strict) as [[m|]|e]; cbn [bind is_None]; split;
      intros H; try discriminate; try (destruct H; discriminate); eauto. }
  assert (Htrue : forall a,
             (r <- _validate_types a v strict ;; Return (is_None r)) = Return true
             <-> passes a strict v).
  { intros a. unfold passes.
    destruct (_validate_types a v strict) as [[m|]|e]; cbn [bind is_None]; split;
      intros H; try discriminate; reflexivity. }
  split; intros (pre & t & post & Hl & Hpre & Ht); exists pre, t, post;
    (split; [assumption|]); (split; [|apply Htrue; assumption]);
    (eapply Forall_impl; [|exact Hpre]); intros a; apply Hfalse.
Qed.

Lemma union_passes_iff_first_match_witness :
  passes (GenericAlias None "typing.Union[str, int, typing.Tuple[int]]"
            [Class "str"; Class "int";
             GenericAlias (Some "Tuple") "typing.Tuple[int]" [Class "int"]])
         true (VInt 3).
Proof.
  apply (proj2 (union_passes_iff_first_match None
                  "typing.Union[str, int, typing.Tuple[int]]"
                  [Class "str"; Class "int";
                   GenericAlias (Some "Tuple") "typing.Tuple[int]" [Class "int"]]
                  (VInt 3) true eq_refl eq_refl)).
  exists [Class "str"], (Class "int"),
    [GenericAlias (Some "Tuple") "typing.Tuple[int]" [Class "int"]].
  split; [reflexivity|]. split; [|reflexivity].
  constructor; [|constructor]. eexists. reflexivity.
Defined.

(** * Further properties of the aggregator *)

Lemma getattr_Raise target name e :
  getattr target name = Raise e -> is_TypeValidationError e = false.
Proof.
  unfold getattr. destruct (find _ _); intros H; invert_Return. reflexivity.
Qed.

Lemma field_outcome_Raise target strict f e :
  field_outcome target strict f = Raise e -> is_TypeValidationError e = false.
Proof.
  unfold field_outcome.
  destruct (getattr target (field_name f)) as [value|e'] eqn:Hget; cbn [bind].
  - apply validate_types_Raise.
  - intros H; invert_Return. eapply getattr_Raise; eassumption.
Qed.

Lemma validate_fields_step target strict f rest errors :
  validate_fields target strict (f :: rest) errors =
  (err <- field_outcome target strict f ;;
   validate_fields target strict rest
     (match err with
      | Some e => dict_set errors (field_name f) e
      | None => errors
      end)).
Proof.
  rewrite validate_fields_cons. unfold field_outcome.
  destruct (getattr target (field_name f)); reflexivity.
Qed.

Lemma In_dict_set {V} (d : list (string * V)) k v k' v' :
  In (k', v') (dict_set d k v) -> In (k', v') d \/ (k' = k /\ v' = v).
Proof.
  induction d as [|[k0 v0] d IH]; simpl.
  - intros [H|[]]. inversion H; auto.
  - destruct (String.eqb_spec k k0) as [->|_]; simpl.
    + intros [H|H]; [inversion H; auto | auto].
    + intros [H|H]; [auto|]. destruct (IH H); auto.
Qed.

(** The entries with which the loop ends are those it started with and
    messages of fields under their names; the loop raises no
    [TypeValidationError] itself. *)
Lemma validate_fields_entries target strict fields :
  forall errors,
    match validate_fields target strict fields errors with
    | Return errors' =>
        forall k m, In (k, m) errors' ->
          In (k, m) errors
          \/ exists f, In f fields /\ field_name f = k
                       /\ field_outcome target strict f = Return (Some m)
    | Raise e => is_TypeValidationError e = false
    end.
Proof.
  induction fields as [|f fields IH]; intros errors.
  - simpl. auto.
  - rewrite validate_fields_step.
    destruct (field_outcome target strict f) as [err|e] eqn:Hf; cbn [bind].
    + specialize (IH (match err with
                      | Some e => dict_set errors (field_name f) e
                      | None => errors
                      end)).
      destruct (validate_fields target strict fields _) as [errors'|e]; [|exact IH].
      intros k m Hin. destruct (IH k m Hin) as [Hold|(g & Hg & Hk & Hm)].
      * destruct err as [e|]; [|auto].
        apply In_dict_set in Hold as [Hold|[-> ->]]; [auto|].
        right. exists f. repeat split; auto. left; reflexivity.
      * right. exists g. repeat split; auto. right; assumption.
    + eapply field_outcome_Raise; eassumption.
Qed.

(** X9: A [TypeValidationError] of the validator always has the same message
    and at least one entry, and every entry is the message of a field of that
    name: nothing is reported that the matcher did not return. *)
Theorem reported_errors_come_from_fields (target : instance) (strict : bool)
    (msg : string) (errors : list (string * string)) :
  dataclass_type_validator target strict = Raise (TypeValidationError msg errors) ->
  msg = "Dataclass Type Validation Error"
  /\ errors <> []
  /\ forall k m, In (k, m) errors ->
       exists f, In f (dataclass_fields target) /\ field_name f = k
                 /\ field_outcome target strict f = Return (Some m).
Proof.
  unfold dataclass_type_validator.
  pose proof (validate_fields_entries target strict (dataclass_fields target) []) as H.
  destruct (validate_fields target strict (dataclass_fields target) [])
    as [errors'|e]; cbn [bind].
  - destruct errors' as [|entry errors']; cbn [length Nat.ltb Nat.leb]; [discriminate|].
    intros Heq. inversion Heq; subst. repeat split; [discriminate|].
    intros k m Hin. destruct (H k m Hin) as [[]|Hf]. exact Hf.
  - intros Heq. inversion Heq; subst. discriminate H.
Qed.

Lemma reported_errors_come_from_fields_witness :
  "Dataclass Type Validation Error" = "Dataclass Type Validation Error"
  /\ [("age", "must be an instance of <class 'int'>, but received <class 'str'>")] <> []
  /\ forall k m,
       In (k, m) [("age", "must be an instance of <class 'int'>, but received <class 'str'>")] ->
       exists f,
         In f [mkField "name" (Class "str"); mkField "age" (Class "int")]
         /\ field_name f = k
         /\ field_outcome
              (mkInstance [mkField "name" (Class "str"); mkField "age" (Class "int")]
                          [("name", VStr "Alice"); ("age", VStr "30")]) false f
            = Return (Some m).
Proof.
  apply (reported_errors_come_from_fields
           (mkInstance [mkField "name" (Class "str"); mkField "age" (Class "int")]
                       [("name", VStr "Alice"); ("age", VStr "30")]) false).
  reflexivity.
Defined.

(** X10: The exception of the first field whose check raises is the exception
    of the validator, whatever the fields after it hold. *)
Theorem first_raising_field_propagates (target : instance) (strict : bool)
    (pre post : list Field) (f : Field) (e : exn) :
  dataclass_fields target = (pre ++ f :: post)%list ->
  Forall (fun g => exists r, field_outcome target strict g = Return r) pre ->
  field_outcome target strict f = Raise e ->
  dataclass_type_validator target strict = Raise e.
Proof.
  intros Hfields Hpre Hf. unfold dataclass_type_validator. rewrite Hfields.
  assert (H : forall errors,
             validate_fields target strict (pre ++ f :: post) errors = Raise e).
  { clear Hfields. induction Hpre as [|g pre [r Hr] _ IH]; intros errors.
    - simpl app. rewrite validate_fields_step, Hf. reflexivity.
    - simpl app. rewrite validate_fields_step, Hr. cbn [bind]. apply IH. }
  rewrite H. reflexivity.
Qed.

Lemma first_raising_field_propagates_witness :
  dataclass_type_validator
    (mkInstance [mkField "a" (Class "int");
                 mkField "b" (GenericAlias (Some "Set") "typing.Set[int]" [Class "int"]);
                 mkField "c" (Class "int")]
                [("a", VStr "x"); ("b", VInt 1); ("c", VStr "y")]) true
  = Raise (RuntimeError "Unknown type of typing.Set[int] (_name = Set)").
Proof.
  apply (first_raising_field_propagates _ true
           [mkField "a" (Class "int")] [mkField "c" (Class "int")]
           (mkField "b" (GenericAlias (Some "Set") "typing.Set[int]" [Class "int"]))).
  - reflexivity.
  - repeat constructor. eexists. reflexivity.
  - reflexivity.
Defined.

(** X11: The validator reads the attributes that are fields and no others: two
    instances of one class that agree on them get the same result. *)
Theorem validation_reads_only_field_attributes (target1 target2 : instance)
    (strict : bool) :
  dataclass_fields target1 = dataclass_fields target2 ->
  (forall f, In f (dataclass_fields target1) ->
             getattr target1 (field_name f) = getattr target2 (field_name f)) ->
  dataclass_type_validator target1 strict = dataclass_type_validator target2 strict.
Proof.
  intros Hfields Hattrs. unfold dataclass_type_validator. rewrite <- Hfields.
  assert (H : forall fields,
             (forall f, In f fields ->
                        getattr target1 (field_name f) = getattr target2 (field_name f)) ->
             forall errors,
               validate_fields target1 strict fields errors
               = validate_fields target2 strict fields errors).
  { induction fields as [|f fields IH]; intros Hagree errors; [reflexivity|].
    rewrite !validate_fields_cons, (Hagree f (or_introl eq_refl)).
    destruct (getattr target2 (field_name f)); cbn [bind]; [|reflexivity].
    destruct (_validate_types _ _ _); cbn [bind]; [|reflexivity].
    apply IH. intros g Hg. apply Hagree. right; assumption. }
  rewrite (H _ Hattrs). reflexivity.
Qed.

Lemma validation_reads_only_field_attributes_witness :
  dataclass_type_validator
    (mkInstance [mkField "x" (Class "int")] [("x", VInt 1); ("cache", VStr "a")]) false
  = dataclass_type_validator
      (mkInstance [mkField "x" (Class "int")] [("cache", VNone); ("x", VInt 1)]) false.
Proof.
  apply validation_reads_only_field_attributes.
  - reflexivity.
  - intros f [<-|[]]. reflexivity.
Defined.




(** * Further properties of the decorator *)

(** X13: Whatever the options and whether or not the class has a
    [__post_init__], building an instance of the decorated dataclass builds
    it as the undecorated class does and then validates the finished
    instance: an exception of the original construction comes out unchanged,
    a valid instance is returned as it is. *)
Theorem decorated_constructor_validates_the_built_instance (fields : list Field)
    (post_init : option post_init_method) (strict before_post_init : bool)
    (args : list pyobj) :
  let cls := dataclass fields post_init in
  construct (dataclass_validate cls strict before_post_init) args =
  (x <- construct cls args ;;
   _ <- dataclass_type_validator x strict ;;
   Return x).
Proof.
  cbv zeta. unfold construct, dataclass_validate, dataclass, generated_init.
  destruct post_init as [m|], before_post_init; simpl;
    destruct (assign_fields fields args []) as [d|e]; simpl; reflexivity.
Qed.

(** X14: Decorating a decorated dataclass again, with the same [strict], changes
    nothing of what its constructor returns or raises. *)
Theorem decorating_twice_is_decorating_once (fields : list Field)
    (post_init : option post_init_method) (strict b1 b2 : bool) (args : list pyobj) :
  let cls := dataclass_validate (dataclass fields post_init) strict b1 in
  construct (dataclass_validate cls strict b2) args = construct cls args.
Proof.
  cbv zeta. unfold construct, dataclass_validate, dataclass, generated_init.
  destruct post_init as [m|], b1, b2; simpl;
    destruct (assign_fields fields args []) as [d|e]; simpl; try reflexivity;
    try (destruct (m _) as [x|e]; simpl; try reflexivity);
    destruct (dataclass_type_validator _ strict) as [[]|e] eqn:Hv; simpl;
    rewrite ?Hv; reflexivity.
Qed.

(** * The text of a raised error *)

(** What [str()] and [repr()] give for the error of a record whose [age]
    holds a string. *)
Example TypeValidationError_texts :
  let errors := [("age", "must be an instance of <class 'int'>, but received <class 'str'>")] in
  dataclass_type_validator
    (mkInstance [mkField "name" (Class "str"); mkField "age" (Class "int")]
                [("name", VStr "Alice"); ("age", VStr "30")]) false
  = Raise (TypeValidationError "Dataclass Type Validation Error" errors)
  /\ TypeValidationError_str "Dataclass Type Validation Error" errors
     = "Dataclass Type Validation Error (errors = "
       ++ "{'age': " ++ repr_str "must be an instance of <class 'int'>, but received <class 'str'>"
       ++ "})"
  /\ TypeValidationError_repr "dataclass_type_validator" "TypeValidationError"
       "Dataclass Type Validation Error" errors
     = "dataclass_type_validator.TypeValidationError('Dataclass Type Validation Error', errors="
       ++ "{'age': " ++ repr_str "must be an instance of <class 'int'>, but received <class 'str'>"
       ++ "})".
Proof. repeat split. Qed.
